(** * geass-trading: connection lifecycle and health aggregation

    A shallow embedding of [src/config/prisma.service.ts],
    [src/health/health.service.ts], [src/health/health.controller.ts] and
    the [validateEnvironment] function of [src/config/env.validation.ts].

    The TypeScript methods are [async] functions that talk to a database
    client, read the wall clock, write to a logger and may throw.  They are
    embedded as computations in a state-and-exception monad [M] over a
    [World] that records everything outside the process: the clock, the
    replies the outside will give at each suspension point, and the trace of
    what the code did to the outside (client calls, timers, log lines). *)

From Stdlib Require Import ZArith List String Bool Lia DecimalString.
Import ListNotations.
Local Open Scope string_scope.
Local Open Scope list_scope.
Local Open Scope Z_scope.

(** ** JavaScript values that cross the embedding *)

(** A thrown value.  The services only ever catch, log and rethrow what the
    database client raised, so an error is its message. *)
Inductive exn : Type :=
| JsError (message : string).

(** [new Date(ms).toISOString()]: the rendered text is determined by the
    epoch milliseconds it is rendered from, which is what is kept. *)
Inductive IsoString : Type :=
| toISOString (epochMillis : Z).

(** The tagged templates handed to [$executeRaw] and [$queryRaw]. *)
Definition sql : Type := string.

Inductive LogLevel : Type := LOG | WARN | ERROR.

(** What the process does to the outside, in program order. *)
Inductive event : Type :=
| EvConnect
| EvDisconnect
| EvExecuteRaw (statement : sql)
| EvQueryRaw (statement : sql)
| EvSetTimeout (delay : Z)
| EvLogger (level : LogLevel) (message : string) (error : option exn).

(** Modelled from the spec: the connection state of the Prisma client, which
    lives inside [PrismaClient] (an external library) and has no field in
    the repository.  The states are those of section 3 of the specification;
    [Connecting] is the time spent inside [$connect]. *)
Inductive ConnectionState : Type :=
| Disconnected
| Connecting
| Connected
| Failed.

(** The outside's answer at one suspension point ([await]): how many
    milliseconds of wall-clock time pass before the process resumes, and
    whether the awaited promise rejects. *)
Record reply : Type := mkReply {
  took : Z;
  failure : option exn
}.

(** [process.memoryUsage()], the two fields the health check reads. *)
Record MemoryUsage : Type := mkMemoryUsage {
  heapUsed : Z;
  heapTotal : Z
}.

Record World : Type := mkWorld {
  clock : Z;                          (* what [Date.now()] reads *)
  awaits : nat;                       (* suspension points passed so far *)
  oracle : nat -> reply;              (* the outside's answer at each one *)
  connection : ConnectionState;
  memory_now : MemoryUsage;
  npm_package_version : option string;  (* process.env.npm_package_version *)
  NODE_ENV : option string;             (* process.env.NODE_ENV *)
  trace : list event
}.

(** ** The monad of [async] methods *)

Inductive result (A : Type) : Type :=
| Ok (value : A)
| Throw (error : exn).
Arguments Ok {A} value.
Arguments Throw {A} error.

Definition M (A : Type) : Type := World -> result A * World.

Definition ret {A} (a : A) : M A := fun w => (Ok a, w).

Definition bind {A B} (m : M A) (k : A -> M B) : M B :=
  fun w =>
    match m w with
    | (Ok a, w') => k a w'
    | (Throw e, w') => (Throw e, w')
    end.

Definition throw {A} (e : exn) : M A := fun w => (Throw e, w).

(** [try { body } catch (error) { handler }] *)
Definition try_catch {A} (body : M A) (handler : exn -> M A) : M A :=
  fun w =>
    match body w with
    | (Ok a, w') => (Ok a, w')
    | (Throw e, w') => handler e w'
    end.

Declare Scope async_scope.
Delimit Scope async_scope with async.
Notation "x <- m ;; k" := (bind m (fun x => k))
  (at level 61, m at next level, right associativity) : async_scope.
Notation "m ;; k" := (bind m (fun _ => k))
  (at level 61, right associativity) : async_scope.
Local Open Scope async_scope.

(** ** The outside: clock, client, timers, logger, process *)

Definition record (ev : event) (w : World) : World :=
  mkWorld (clock w) (awaits w) (oracle w) (connection w) (memory_now w)
          (npm_package_version w) (NODE_ENV w) (trace w ++ [ev]).

(** Pass one suspension point: the clock moves by what the outside says. *)
Definition resume (elapsed : Z) (w : World) : World :=
  mkWorld (clock w + elapsed) (S (awaits w)) (oracle w) (connection w)
          (memory_now w) (npm_package_version w) (NODE_ENV w) (trace w).

Definition set_connection (c : ConnectionState) (w : World) : World :=
  mkWorld (clock w) (awaits w) (oracle w) c (memory_now w)
          (npm_package_version w) (NODE_ENV w) (trace w).

(** The reply the outside gives at the next suspension point. *)
Definition next_reply (w : World) : reply := oracle w (awaits w).

(** [Date.now()].  The clock of a world moves only at suspension points
    ([resume]): two reads with no [await] between them see the same
    millisecond. *)
Definition Date_now : M Z := fun w => (Ok (clock w), w).

(** [new Date().toISOString()] *)
Definition new_Date_toISOString : M IsoString :=
  fun w => (Ok (toISOString (clock w)), w).

(** [process.memoryUsage()] *)
Definition process_memoryUsage : M MemoryUsage :=
  fun w => (Ok (memory_now w), w).

(** [process.env.X ?? fallback] *)
Definition env_or (read : World -> option string) (fallback : string) : M string :=
  fun w => (Ok (match read w with Some v => v | None => fallback end), w).

(** An awaited call on the database client: it is recorded, time passes,
    and the promise resolves or rejects as the outside decides. *)
Definition client_call (ev : event) : M unit :=
  fun w =>
    let r := next_reply w in
    let w' := resume (took r) (record ev w) in
    match failure r with
    | None => (Ok tt, w')
    | Some e => (Throw e, w')
    end.

(** Modelled from the spec: the effect of [$connect] and [$disconnect] on
    the client's connection state ([PrismaClient] is not repository code).
    A successful connect ends in [Connected], a failed one in [Failed]; a
    successful disconnect ends in [Disconnected], a failed one changes
    nothing. *)
Definition dollar_connect : M unit :=
  fun w =>
    match client_call EvConnect (set_connection Connecting w) with
    | (Ok tt, w') => (Ok tt, set_connection Connected w')
    | (Throw e, w') => (Throw e, set_connection Failed w')
    end.

Definition dollar_disconnect : M unit :=
  fun w =>
    match client_call EvDisconnect w with
    | (Ok tt, w') => (Ok tt, set_connection Disconnected w')
    | (Throw e, w') => (Throw e, w')
    end.

(** [$executeRaw`...`] and [$queryRaw`...`]: the rows are never looked at. *)
Definition dollar_executeRaw (statement : sql) : M unit :=
  client_call (EvExecuteRaw statement).

Definition dollar_queryRaw (statement : sql) : M unit :=
  client_call (EvQueryRaw statement).

(** A row of the two version queries, [{ version: string }]. *)
Record VersionRow : Type := mkVersionRow {
  row_version : string
}.

(** [$queryRaw<Array<{ version: string }>>`...`] where the rows are read:
    besides resolving or rejecting, the outside hands back a result set at
    that suspension point. *)
Definition dollar_queryRaw_rows (result_set : nat -> list VersionRow)
    (statement : sql) : M (list VersionRow) :=
  fun w =>
    match client_call (EvQueryRaw statement) w with
    | (Ok tt, w') => (Ok (result_set (awaits w)), w')
    | (Throw e, w') => (Throw e, w')
    end.

(** What V8 throws for [undefined.version]. *)
Definition TypeError_version_of_undefined : exn :=
  JsError "Cannot read properties of undefined (reading 'version')".

(** [await new Promise(resolve => setTimeout(resolve, delay))]: the promise
    has no reject path; the process resumes [delay] milliseconds later plus
    whatever the scheduler adds ([took] of the reply). *)
Definition setTimeout_promise (delay : Z) : M unit :=
  fun w =>
    let r := next_reply w in
    (Ok tt, resume (delay + took r) (record (EvSetTimeout delay) w)).

(** [this.logger.log / warn / error] *)
Definition logger_log (message : string) : M unit :=
  fun w => (Ok tt, record (EvLogger LOG message None) w).

Definition logger_warn (message : string) (error : exn) : M unit :=
  fun w => (Ok tt, record (EvLogger WARN message (Some error)) w).

Definition logger_error (message : string) (error : exn) : M unit :=
  fun w => (Ok tt, record (EvLogger ERROR message (Some error)) w).

(** ** src/config/prisma.service.ts *)

Module PrismaService.

Definition CREATE_EXTENSION : sql :=
  "CREATE EXTENSION IF NOT EXISTS timescaledb CASCADE;".

Definition CREATE_HYPERTABLE : sql :=
  "
        SELECT create_hypertable('market_data', 'time', if_not_exists => TRUE);
      ".

Definition SELECT_1 : sql := "SELECT 1".

Definition enableTimescaleDB : M unit :=
  try_catch
    (dollar_executeRaw CREATE_EXTENSION ;;
     logger_log "⏰ TimescaleDB extension enabled")
    (fun error => logger_warn "TimescaleDB extension may already be enabled" error).

Definition createMarketDataHypertable : M unit :=
  try_catch
    (dollar_executeRaw CREATE_HYPERTABLE ;;
     logger_log "📊 market_data hypertable created/verified")
    (fun error =>
       logger_warn "Hypertable may already exist or TimescaleDB not available" error).

Definition initializeTimescaleDB : M unit :=
  try_catch
    (enableTimescaleDB ;;
     createMarketDataHypertable)
    (fun error =>
       logger_warn "TimescaleDB initialization warning (may already be configured)" error).

Definition onModuleInit : M unit :=
  try_catch
    (dollar_connect ;;
     logger_log "🗄️  Database connected successfully" ;;
     initializeTimescaleDB)
    (fun error =>
       logger_error "Failed to connect to database" error ;;
       throw error).

Definition onModuleDestroy : M unit :=
  try_catch
    (dollar_disconnect ;;
     logger_log "🔌 Database disconnected")
    (fun error => logger_error "Error disconnecting from database" error).

Definition isHealthy : M bool :=
  try_catch
    (dollar_queryRaw SELECT_1 ;;
     ret true)
    (fun _ => ret false).

Definition SELECT_VERSION : sql :=
  "
        SELECT version();
      ".

Definition SELECT_EXTVERSION : sql :=
  "
          SELECT extversion as version FROM pg_extension WHERE extname = 'timescaledb';
        ".

(** [{ version: string; timescaleVersion?: string }] *)
Record DatabaseInfo : Type := mkDatabaseInfo {
  version : string;
  timescaleVersion : option string
}.

(** [const [first] = rows]: the first row, [undefined] on an empty array. *)
Definition first_row (rows : list VersionRow) : option VersionRow := hd_error rows.

Definition getDatabaseInfo (result_set : nat -> list VersionRow) : M DatabaseInfo :=
  try_catch
    (versionRows <- dollar_queryRaw_rows result_set SELECT_VERSION ;;
     let versionResult := first_row versionRows in
     timescaleVersion <-
       try_catch
         (timescaleRows <- dollar_queryRaw_rows result_set SELECT_EXTVERSION ;;
          let timescaleResult := first_row timescaleRows in
          ret (option_map row_version timescaleResult))   (* timescaleResult?.version *)
         (fun _ => ret None) ;;
     match versionResult with
     | Some row => ret (mkDatabaseInfo (row_version row) timescaleVersion)
     | None => throw TypeError_version_of_undefined       (* versionResult.version *)
     end)
    (fun error =>
       logger_error "Failed to get database info" error ;;
       throw error).

(** The options object the constructor hands to [super(...)]. *)
Record PrismaClientOptions : Type := mkPrismaClientOptions {
  datasources_db_url : option string;
  log : list string;
  errorFormat : string
}.

(** [configService.get(key)], [None] for [undefined]. *)
Definition ConfigService : Type := string -> option string.

(** [value === text] for a value that may be [undefined]. *)
Definition strict_equals (value : option string) (text : string) : bool :=
  match value with
  | Some v => String.eqb v text
  | None => false
  end.

Definition constructor_options (configService : ConfigService) : PrismaClientOptions :=
  let isDevelopment := strict_equals (configService "NODE_ENV") "development" in
  mkPrismaClientOptions
    (configService "DATABASE_URL")
    (if isDevelopment then ["query"; "info"; "warn"; "error"] else ["warn"; "error"])
    "pretty".

End PrismaService.

(** ** src/health/dto/health-response.dto.ts *)

Inductive CheckStatus : Type := up | down.     (* 'up' | 'down' *)
Inductive OverallStatus : Type := ok | error.  (* 'ok' | 'error' *)

Definition CheckStatus_eqb (a b : CheckStatus) : bool :=
  match a, b with
  | up, up | down, down => true
  | _, _ => false
  end.

Record HealthCheckDto : Type := mkHealthCheckDto {
  hc_status : CheckStatus;
  responseTime : Z;
  details : option string
}.

Record HealthResponseDto : Type := mkHealthResponseDto {
  status : OverallStatus;
  timestamp : IsoString;
  uptime : Z;
  (* the source rounds the two readings to megabytes and a percentage in
     floating point; the readings themselves are kept *)
  memory : MemoryUsage;
  checks : list (string * HealthCheckDto);   (* Record<string, HealthCheckDto> *)
  version : string;
  environment : string
}.

(** The object literal returned by [readiness()] and [ready()]. *)
Record ReadinessDto : Type := mkReadinessDto {
  rd_status : string;
  rd_timestamp : IsoString;
  dependencies : list (string * bool)        (* Record<string, boolean> *)
}.

(** The object literal returned by [live()]. *)
Record LivenessDto : Type := mkLivenessDto {
  lv_status : string;
  lv_timestamp : IsoString
}.

(** [Object.values(o)] of an object literal: its values in key order. *)
Definition Object_values {V} (o : list (string * V)) : list V := map snd o.

(** [o[key]] on an object used as a map. *)
Fixpoint lookup {V} (key : string) (o : list (string * V)) : option V :=
  match o with
  | [] => None
  | (k, v) :: rest => if String.eqb k key then Some v else lookup key rest
  end.

(** ** src/health/health.service.ts *)

Module HealthService.

Record t : Type := mk {
  startTime : Z     (* private readonly startTime = Date.now() *)
}.

Definition checkDatabase : M Z :=
  start <- Date_now ;;
  try_catch
    (isHealthy <- PrismaService.isHealthy ;;
     if isHealthy : bool
     then (finish <- Date_now ;; ret (finish - start))
     else ret (-1))
    (fun _ => ret (-1)).

Definition checkRedis : M Z :=
  start <- Date_now ;;
  try_catch
    (setTimeout_promise 5 ;;
     finish <- Date_now ;;
     ret (finish - start))
    (fun _ => ret (-1)).

Definition isDatabaseHealthy : M bool :=
  try_catch
    (responseTime <- checkDatabase ;;
     ret (0 <? responseTime))
    (fun _ => ret false).

Definition isRedisHealthy : M bool :=
  try_catch
    (responseTime <- checkRedis ;;
     ret (0 <? responseTime))
    (fun _ => ret false).

Definition check (this : t) : M HealthResponseDto :=
  memoryUsage <- process_memoryUsage ;;
  now <- Date_now ;;
  let uptime := (now - startTime this) / 1000 in
  databaseTime <- checkDatabase ;;
  redisTime <- checkRedis ;;
  let checks :=
    [ ("database", mkHealthCheckDto up databaseTime (Some "Connected successfully"));
      ("redis", mkHealthCheckDto up redisTime (Some "Connected successfully")) ] in
  let allHealthy :=
    forallb (fun check => CheckStatus_eqb (hc_status check) up) (Object_values checks) in
  stamp <- new_Date_toISOString ;;
  version <- env_or npm_package_version "1.0.0" ;;
  environment <- env_or NODE_ENV "development" ;;
  ret (mkHealthResponseDto
         (if allHealthy then ok else error)
         stamp uptime memoryUsage checks version environment).

Definition readiness (this : t) : M ReadinessDto :=
  databaseHealthy <- isDatabaseHealthy ;;
  redisHealthy <- isRedisHealthy ;;
  let dependencies :=
    [ ("database", databaseHealthy);
      ("redis", redisHealthy) ] in
  let allReady := forallb (fun b : bool => b) (Object_values dependencies) in
  stamp <- new_Date_toISOString ;;
  ret (mkReadinessDto
         (if allReady then "ready" else "not-ready")
         stamp dependencies).

End HealthService.

(** ** src/health/health.controller.ts *)

Module HealthController.

(** [@Get()] *)
Definition check (healthService : HealthService.t) : M HealthResponseDto :=
  HealthService.check healthService.

(** [@Get('live')] *)
Definition live : M LivenessDto :=
  stamp <- new_Date_toISOString ;;
  ret (mkLivenessDto "ok" stamp).

(** [@Get('ready')] *)
Definition ready (healthService : HealthService.t) : M ReadinessDto :=
  HealthService.readiness healthService.

End HealthController.

(** ** The framework's reply to a handler *)

Module Nest.

(** What the framework sends for a [@Get] handler that carries no
    [@HttpCode] and takes no response object, as all three handlers here:
    a returned body goes out with 200; an exception that is not an
    [HttpException] (the repository throws none) goes out with 500. *)
Definition http_status {A} (outcome : result A) : Z :=
  match outcome with
  | Ok _ => 200
  | Throw _ => 500
  end.

End Nest.

(** ** src/config/env.validation.ts *)

Module EnvValidation.

(** An element of a Zod issue path, [string | number]. *)
Inductive PathItem : Type :=
| Key (name : string)
| Index (position : N).

(** [String(item)] *)
Definition PathItem_toString (item : PathItem) : string :=
  match item with
  | Key name => name
  | Index position => NilEmpty.string_of_uint (N.to_uint position)
  end.

(** The two fields of a Zod issue the function reads. *)
Record ZodIssue : Type := mkZodIssue {
  path : list PathItem;
  message : string
}.

(** What [envValidationSchema.parse] or the function itself may throw. *)
Inductive Raised : Type :=
| ZodError (errors : list ZodIssue)     (* error instanceof z.ZodError *)
| Other (e : exn).

(** [Array.prototype.join] on strings. *)
Fixpoint join (separator : string) (items : list string) : string :=
  match items with
  | [] => ""
  | item :: rest =>
      match rest with
      | [] => item
      | _ :: _ => (item ++ separator ++ join separator rest)%string
      end
  end.

(** [err => `${err.path.join('.')}: ${err.message}`] *)
Definition describe (err : ZodIssue) : string :=
  (join "." (map PathItem_toString (path err)) ++ ": " ++ message err)%string.

(** [validateEnvironment(config)].  The schema's [parse] belongs to the Zod
    library and is taken as given: it returns the parsed environment or
    throws. *)
Definition validateEnvironment {Config Env : Type}
    (parse : Config -> Env + Raised) (config : Config) : Env + Raised :=
  match parse config with
  | inl environment => inl environment
  | inr (ZodError errors) =>
      let errorMessages := join ", " (map describe errors) in
      inr (Other (JsError ("Environment validation failed: " ++ errorMessages)%string))
  | inr (Other e) => inr (Other e)
  end.

End EnvValidation.

(** ** Sample worlds *)

(** A world in which every awaited call succeeds after [ms] milliseconds. *)
Definition all_up (ms : Z) : World :=
  mkWorld 1700000000000 0 (fun _ => mkReply ms None) Connected
          (mkMemoryUsage 47815065 536870912) None None [].

(** A world in which every awaited call on the client is rejected. *)
Definition database_down : World :=
  mkWorld 1700000000000 0
          (fun _ => mkReply 3 (Some (JsError "Can't reach database server")))
          Connected (mkMemoryUsage 47815065 536870912) None None [].

(** A world in which the database answers in 2 ms and the wall clock is set
    back ten seconds while the timer that follows is pending. *)
Definition clock_set_back : World :=
  mkWorld 1700000000000 0
          (fun n => match n with
                    | O => mkReply 2 None
                    | S _ => mkReply (-10000) None
                    end)
          Connected (mkMemoryUsage 47815065 536870912) None None [].

Definition service : HealthService.t := HealthService.mk 1699999990000.

(** Result sets of a store without the extension: the first query answers
    two rows, every later one none. *)
Definition plain_postgres_rows (n : nat) : list VersionRow :=
  match n with
  | O => [mkVersionRow "PostgreSQL 15.4"; mkVersionRow "ignored"]
  | S _ => []
  end.

(** Two issues as the schema reports them, and a parse that throws them. *)
Definition sample_issues : list EnvValidation.ZodIssue :=
  [ EnvValidation.mkZodIssue [EnvValidation.Key "JWT_SECRET"]
      "JWT_SECRET must be at least 32 characters";
    EnvValidation.mkZodIssue [EnvValidation.Key "hosts"; EnvValidation.Index 10]
      "Required" ].

Definition sample_parse (config : unit) : unit + EnvValidation.Raised :=
  inr (EnvValidation.ZodError sample_issues).

(** ** Vocabulary of the statements *)

(** What a computation returned, if it returned. *)
Definition returned {A} (run : result A * World) : option A :=
  match fst run with
  | Ok a => Some a
  | Throw _ => None
  end.

(** The world after an awaited client call that recorded [ev]. *)
Definition after_call (ev : event) (w : World) : World :=
  resume (took (next_reply w)) (record ev w).

(** The world after the 5 ms timer of the redis probe. *)
Definition after_timer (w : World) : World :=
  resume (5 + took (next_reply w)) (record (EvSetTimeout 5) w).

(** The log line a bootstrap step leaves behind, by the reply it got. *)
Definition step_report (done warning : string) (r : reply) : event :=
  match failure r with
  | None => EvLogger LOG done None
  | Some e => EvLogger WARN warning (Some e)
  end.

(** The world after a whole bootstrap. *)
Definition bootstrapped (w : World) : World :=
  snd (PrismaService.createMarketDataHypertable
         (snd (PrismaService.enableTimescaleDB w))).

(** The world after the database probe. *)
Definition after_database (w : World) : World :=
  after_call (EvQueryRaw PrismaService.SELECT_1) w.

(** What [checkDatabase()] measures: the time the round trip took when it
    resolved, the sentinel otherwise. *)
Definition database_time (w : World) : Z :=
  match failure (next_reply w) with
  | None => took (next_reply w)
  | Some _ => -1
  end.

(** The world after both probes have run. *)
Definition after_probes (w : World) : World := after_timer (after_database w).

(** What [checkRedis()] measures when it runs after the database probe. *)
Definition redis_time (w : World) : Z := 5 + took (next_reply (after_database w)).

(** The two views agree on a world when every name is ['up'] in one exactly
    when it is [true] in the other. *)
Definition views_agree (this : HealthService.t) (w : World) : Prop :=
  forall name : string,
    (exists dto,
        returned (HealthService.check this w) = Some dto /\
        option_map hc_status (lookup name (checks dto)) = Some up) <->
    (exists r,
        returned (HealthService.readiness this w) = Some r /\
        lookup name (dependencies r) = Some true).

(** * Properties *)

(** ** Running the primitives *)

Lemma client_call_run (ev : event) (w : World) :
  client_call ev w =
  (match failure (next_reply w) with
   | None => Ok tt
   | Some e => Throw e
   end, after_call ev w).
Proof.
  unfold client_call, after_call.
  destruct (failure (next_reply w)); reflexivity.
Qed.

Ltac run_client :=
  repeat (unfold dollar_executeRaw, dollar_queryRaw, bind, try_catch, ret, throw,
            logger_log, logger_warn, logger_error, Date_now; cbn beta iota);
  repeat rewrite client_call_run.

(** ** PrismaService *)

Lemma isHealthy_run (w : World) :
  PrismaService.isHealthy w =
  (Ok (match failure (next_reply w) with None => true | Some _ => false end),
   after_call (EvQueryRaw PrismaService.SELECT_1) w).
Proof.
  unfold PrismaService.isHealthy. run_client.
  destruct (failure (next_reply w)); reflexivity.
Qed.

Lemma enableTimescaleDB_run (w : World) :
  PrismaService.enableTimescaleDB w =
  (Ok tt,
   record (step_report "⏰ TimescaleDB extension enabled"
                       "TimescaleDB extension may already be enabled"
                       (next_reply w))
          (after_call (EvExecuteRaw PrismaService.CREATE_EXTENSION) w)).
Proof.
  unfold PrismaService.enableTimescaleDB, step_report. run_client.
  destruct (failure (next_reply w)); reflexivity.
Qed.

Lemma createMarketDataHypertable_run (w : World) :
  PrismaService.createMarketDataHypertable w =
  (Ok tt,
   record (step_report "📊 market_data hypertable created/verified"
                       "Hypertable may already exist or TimescaleDB not available"
                       (next_reply w))
          (after_call (EvExecuteRaw PrismaService.CREATE_HYPERTABLE) w)).
Proof.
  unfold PrismaService.createMarketDataHypertable, step_report. run_client.
  destruct (failure (next_reply w)); reflexivity.
Qed.

Lemma initializeTimescaleDB_run (w : World) :
  PrismaService.initializeTimescaleDB w = (Ok tt, bootstrapped w).
Proof.
  unfold PrismaService.initializeTimescaleDB, bootstrapped, bind, try_catch.
  rewrite enableTimescaleDB_run; cbn [snd].
  rewrite createMarketDataHypertable_run; reflexivity.
Qed.

Lemma bootstrapped_connection (w : World) :
  connection (bootstrapped w) = connection w.
Proof.
  unfold bootstrapped.
  rewrite enableTimescaleDB_run; cbn [snd].
  rewrite createMarketDataHypertable_run; reflexivity.
Qed.

Lemma bootstrapped_trace (w : World) :
  trace (bootstrapped w) =
  trace w ++
  [ EvExecuteRaw PrismaService.CREATE_EXTENSION;
    step_report "⏰ TimescaleDB extension enabled"
                "TimescaleDB extension may already be enabled"
                (oracle w (awaits w));
    EvExecuteRaw PrismaService.CREATE_HYPERTABLE;
    step_report "📊 market_data hypertable created/verified"
                "Hypertable may already exist or TimescaleDB not available"
                (oracle w (S (awaits w))) ].
Proof.
  unfold bootstrapped.
  rewrite enableTimescaleDB_run; cbn [snd].
  rewrite createMarketDataHypertable_run; cbn [snd].
  unfold after_call, next_reply; cbn.
  repeat rewrite <- app_assoc; reflexivity.
Qed.

Lemma dollar_connect_run (w : World) :
  dollar_connect w =
  match failure (next_reply w) with
  | None =>
      (Ok tt, set_connection Connected
                (after_call EvConnect (set_connection Connecting w)))
  | Some e =>
      (Throw e, set_connection Failed
                  (after_call EvConnect (set_connection Connecting w)))
  end.
Proof.
  unfold dollar_connect. rewrite client_call_run.
  change (next_reply (set_connection Connecting w)) with (next_reply w).
  destruct (failure (next_reply w)); reflexivity.
Qed.

Lemma dollar_disconnect_run (w : World) :
  dollar_disconnect w =
  match failure (next_reply w) with
  | None => (Ok tt, set_connection Disconnected (after_call EvDisconnect w))
  | Some e => (Throw e, after_call EvDisconnect w)
  end.
Proof.
  unfold dollar_disconnect. rewrite client_call_run.
  destruct (failure (next_reply w)); reflexivity.
Qed.

Lemma onModuleInit_run (w : World) :
  PrismaService.onModuleInit w =
  match dollar_connect w with
  | (Ok _, w1) =>
      (Ok tt,
       bootstrapped
         (record (EvLogger LOG "🗄️  Database connected successfully" None) w1))
  | (Throw e, w1) =>
      (Throw e, record (EvLogger ERROR "Failed to connect to database" (Some e)) w1)
  end.
Proof.
  unfold PrismaService.onModuleInit, try_catch, bind.
  destruct (dollar_connect w) as [[[]|e] w1]; cbn beta iota.
  - unfold logger_log at 1. rewrite initializeTimescaleDB_run. reflexivity.
  - reflexivity.
Qed.

(** C7. The bootstrap first issues the extension statement, then the
    hypertable statement, whatever the store answers to either; a rejected
    step leaves a warning in the log and nothing is thrown.  Run on a
    connected client it ends connected, and running it a second time from
    there again returns normally and again ends connected. *)
Theorem bootstrap_ordered_and_contained (w : World) :
  connection w = Connected ->
  exists w1 w2,
    PrismaService.initializeTimescaleDB w = (Ok tt, w1) /\
    trace w1 =
      trace w ++
      [ EvExecuteRaw PrismaService.CREATE_EXTENSION;
        step_report "⏰ TimescaleDB extension enabled"
                    "TimescaleDB extension may already be enabled"
                    (oracle w (awaits w));
        EvExecuteRaw PrismaService.CREATE_HYPERTABLE;
        step_report "📊 market_data hypertable created/verified"
                    "Hypertable may already exist or TimescaleDB not available"
                    (oracle w (S (awaits w))) ] /\
    connection w1 = Connected /\
    PrismaService.initializeTimescaleDB w1 = (Ok tt, w2) /\
    connection w2 = Connected.
Proof.
  intros Hconn.
  exists (bootstrapped w), (bootstrapped (bootstrapped w)).
  repeat split.
  - apply initializeTimescaleDB_run.
  - apply bootstrapped_trace.
  - rewrite bootstrapped_connection; exact Hconn.
  - apply initializeTimescaleDB_run.
  - rewrite !bootstrapped_connection; exact Hconn.
Qed.

(** The bootstrap on a store that rejects both statements. *)
Lemma bootstrap_ordered_and_contained_witness :
  connection database_down = Connected /\
  exists w1 w2,
    PrismaService.initializeTimescaleDB database_down = (Ok tt, w1) /\
    trace w1 =
      trace database_down ++
      [ EvExecuteRaw PrismaService.CREATE_EXTENSION;
        step_report "⏰ TimescaleDB extension enabled"
                    "TimescaleDB extension may already be enabled"
                    (oracle database_down (awaits database_down));
        EvExecuteRaw PrismaService.CREATE_HYPERTABLE;
        step_report "📊 market_data hypertable created/verified"
                    "Hypertable may already exist or TimescaleDB not available"
                    (oracle database_down (S (awaits database_down))) ] /\
    connection w1 = Connected /\
    PrismaService.initializeTimescaleDB w1 = (Ok tt, w2) /\
    connection w2 = Connected.
Proof.
  split; [reflexivity | apply (bootstrap_ordered_and_contained database_down); reflexivity].
Defined.

(** C8. Startup throws exactly when [$connect] does, and then throws that
    same error; it returns normally exactly when [$connect] does, whatever
    the bootstrap statements do afterwards.  Shutdown always returns
    normally, also when [$disconnect] is rejected. *)
Theorem only_connect_failure_propagates (w : World) :
  (forall e : exn,
      (exists w', PrismaService.onModuleInit w = (Throw e, w')) <->
      (exists w', dollar_connect w = (Throw e, w'))) /\
  ((exists w', PrismaService.onModuleInit w = (Ok tt, w')) <->
   (exists w', dollar_connect w = (Ok tt, w'))) /\
  (exists w', PrismaService.onModuleDestroy w = (Ok tt, w')).
Proof.
  rewrite onModuleInit_run.
  split; [|split].
  - intros e.
    destruct (dollar_connect w) as [[[]|e0] w1]; split; intros [w' H];
      try discriminate; injection H as -> _; eauto.
  - destruct (dollar_connect w) as [[[]|e0] w1]; split; intros [w' H];
      try discriminate; eauto.
  - unfold PrismaService.onModuleDestroy, try_catch, bind.
    rewrite dollar_disconnect_run.
    destruct (failure (next_reply w)); unfold logger_log, logger_error;
      eexists; reflexivity.
Qed.

(** C9. [isHealthy()] always returns a boolean and never throws: [true]
    exactly when the [SELECT 1] round trip resolves, [false] exactly when it
    is rejected. *)
Theorem isHealthy_never_throws (w : World) :
  exists (b : bool) (w' : World),
    PrismaService.isHealthy w = (Ok b, w') /\
    (b = true <->
     exists w1, dollar_queryRaw PrismaService.SELECT_1 w = (Ok tt, w1)) /\
    (b = false <->
     exists e w1, dollar_queryRaw PrismaService.SELECT_1 w = (Throw e, w1)).
Proof.
  rewrite isHealthy_run.
  unfold dollar_queryRaw. rewrite client_call_run.
  destruct (failure (next_reply w)) as [e|];
    eexists; eexists; (split; [reflexivity|]); split; split;
    try discriminate; eauto.
  - intros [w1 H]; discriminate.
  - intros (e' & w1 & H); discriminate.
Qed.

(** ** HealthService: the probes *)

Lemma checkDatabase_run (w : World) :
  HealthService.checkDatabase w = (Ok (database_time w), after_database w).
Proof.
  unfold HealthService.checkDatabase, database_time, after_database.
  unfold bind at 1. unfold Date_now at 1. cbn beta iota.
  unfold try_catch, bind. rewrite isHealthy_run.
  destruct (failure (next_reply w)); cbn; [reflexivity|].
  do 2 f_equal. lia.
Qed.

Lemma checkRedis_run (w : World) :
  HealthService.checkRedis w = (Ok (5 + took (next_reply w)), after_timer w).
Proof.
  unfold HealthService.checkRedis, after_timer, setTimeout_promise,
    try_catch, bind, Date_now, ret.
  cbn. do 2 f_equal. lia.
Qed.

Lemma isDatabaseHealthy_run (w : World) :
  HealthService.isDatabaseHealthy w = (Ok (0 <? database_time w), after_database w).
Proof.
  unfold HealthService.isDatabaseHealthy, try_catch, bind.
  rewrite checkDatabase_run. reflexivity.
Qed.

Lemma isRedisHealthy_run (w : World) :
  HealthService.isRedisHealthy w = (Ok (0 <? 5 + took (next_reply w)), after_timer w).
Proof.
  unfold HealthService.isRedisHealthy, try_catch, bind.
  rewrite checkRedis_run. reflexivity.
Qed.

(** ** HealthService: the two aggregated views *)

Lemma check_run (this : HealthService.t) (w : World) :
  HealthService.check this w =
  (Ok (mkHealthResponseDto
         ok
         (toISOString (clock (after_probes w)))
         ((clock w - HealthService.startTime this) / 1000)
         (memory_now w)
         [ ("database",
            mkHealthCheckDto up (database_time w) (Some "Connected successfully"));
           ("redis",
            mkHealthCheckDto up (redis_time w) (Some "Connected successfully")) ]
         (match npm_package_version w with Some v => v | None => "1.0.0" end)
         (match NODE_ENV w with Some v => v | None => "development" end)),
   after_probes w).
Proof.
  unfold HealthService.check.
  unfold bind at 1. unfold process_memoryUsage. cbn beta iota.
  unfold bind at 1. unfold Date_now at 1. cbn beta iota.
  unfold bind at 1. rewrite checkDatabase_run.
  unfold bind at 1. rewrite checkRedis_run.
  reflexivity.
Qed.

Lemma readiness_run (this : HealthService.t) (w : World) :
  HealthService.readiness this w =
  (Ok (mkReadinessDto
         (if (0 <? database_time w) && ((0 <? redis_time w) && true)
          then "ready" else "not-ready")
         (toISOString (clock (after_probes w)))
         [ ("database", 0 <? database_time w);
           ("redis", 0 <? redis_time w) ]),
   after_probes w).
Proof.
  unfold HealthService.readiness.
  unfold bind at 1. rewrite isDatabaseHealthy_run.
  unfold bind at 1. rewrite isRedisHealthy_run.
  reflexivity.
Qed.

(** [xs.every(x => x.status === 'up')] against the property it decides. *)
Lemma every_up_spec (cs : list HealthCheckDto) :
  forallb (fun check => CheckStatus_eqb (hc_status check) up) cs = true <->
  Forall (fun check => hc_status check = up) cs.
Proof.
  rewrite forallb_forall, Forall_forall.
  split; intros H c Hc; specialize (H c Hc);
    destruct (hc_status c); simpl in *; congruence.
Qed.

(** [xs.every(Boolean)] against the property it decides. *)
Lemma every_Boolean_spec (bs : list bool) :
  forallb (fun b : bool => b) bs = true <-> Forall (fun b => b = true) bs.
Proof.
  rewrite forallb_forall, Forall_forall. reflexivity.
Qed.

(** C4. [check()] always returns a snapshot, and its status is ['ok']
    exactly when every entry of its checks map has status ['up'];
    [readiness()] always returns a snapshot, and its status is ['ready']
    exactly when every boolean of its dependencies map is [true]. *)
Theorem status_iff_every_entry (this : HealthService.t) (w : World) :
  (exists dto w',
      HealthService.check this w = (Ok dto, w') /\
      (status dto = ok <->
       Forall (fun check => hc_status check = up) (Object_values (checks dto)))) /\
  (exists r w',
      HealthService.readiness this w = (Ok r, w') /\
      (rd_status r = "ready" <->
       Forall (fun b => b = true) (Object_values (dependencies r)))).
Proof.
  split.
  - rewrite check_run. eexists; eexists; split; [reflexivity|].
    rewrite <- every_up_spec.
    cbn [status checks]. split; reflexivity.
  - rewrite readiness_run. eexists; eexists; split; [reflexivity|].
    rewrite <- every_Boolean_spec.
    cbn [rd_status dependencies Object_values map snd forallb].
    destruct ((0 <? database_time w) && ((0 <? redis_time w) && true));
      split; intros H; try reflexivity; discriminate.
Qed.

(** C6. [live()] touches nothing outside the process: the world it
    leaves is the world it found (no client call, no timer, no log line), it
    returns ['ok'] stamped with the current clock reading, and so any two
    worlds, database up or down, get the same status. *)
Theorem live_ignores_dependencies (w w2 : World) :
  HealthController.live w =
    (Ok (mkLivenessDto "ok" (toISOString (clock w))), w) /\
  option_map lv_status (returned (HealthController.live w)) =
    option_map lv_status (returned (HealthController.live w2)) /\
  option_map lv_status (returned (HealthController.live (all_up 2))) = Some "ok" /\
  option_map lv_status (returned (HealthController.live database_down)) = Some "ok".
Proof.
  repeat split; reflexivity.
Qed.

(** C10, as the code has it.  [readiness()] reports each dependency as the
    test [0 <] on what its probe measured.  So a database round trip for
    which [isHealthy()] returns [true] while the clock has not moved is
    reported [false].  The redis probe only arms a 5 ms timer and calls no
    client; it is reported [true] exactly when the clock reads later after
    the timer than before it, whatever the database does - so not when the
    clock is set back across the timer. *)
Theorem readiness_counts_positive_latency (this : HealthService.t) (w : World) :
  exists (databaseTime redisTime : Z) (r : ReadinessDto),
    HealthService.checkDatabase w = (Ok databaseTime, after_database w) /\
    HealthService.checkRedis (after_database w) = (Ok redisTime, after_probes w) /\
    HealthService.readiness this w = (Ok r, after_probes w) /\
    dependencies r = [ ("database", 0 <? databaseTime); ("redis", 0 <? redisTime) ] /\
    redisTime = clock (after_probes w) - clock (after_database w) /\
    trace (after_probes w) = trace (after_database w) ++ [EvSetTimeout 5] /\
    (PrismaService.isHealthy w = (Ok true, after_database w) ->
     clock (after_database w) = clock w ->
     lookup "database" (dependencies r) = Some false) /\
    (lookup "redis" (dependencies r) = Some true <->
     clock (after_database w) < clock (after_probes w)).
Proof.
  exists (database_time w), (redis_time w).
  eexists. rewrite checkDatabase_run, checkRedis_run, readiness_run.
  assert (Hredis : redis_time w = clock (after_probes w) - clock (after_database w)).
  { unfold redis_time, after_probes, after_timer. cbn -[Z.add]. lia. }
  repeat split.
  - exact Hredis.
  - rewrite isHealthy_run. intros Hq Hclock.
    cbn [dependencies lookup String.eqb Ascii.eqb Bool.eqb].
    unfold database_time.
    destruct (failure (next_reply w)); [discriminate|].
    unfold after_database, after_call in Hclock. cbn in Hclock.
    unfold next_reply in *.
    replace (took (oracle w (awaits w))) with 0 by lia. reflexivity.
  - cbn [dependencies lookup String.eqb Ascii.eqb Bool.eqb]. intros Htrue.
    injection Htrue as Htrue. apply Z.ltb_lt in Htrue. lia.
  - cbn [dependencies lookup String.eqb Ascii.eqb Bool.eqb]. intros Hlater.
    f_equal. apply Z.ltb_lt. lia.
Qed.

(** A database that answers within the same millisecond, and a timer after
    which the clock reads later. *)
Lemma readiness_counts_positive_latency_witness :
  exists r : ReadinessDto,
    returned (HealthService.readiness service (all_up 0)) = Some r /\
    returned (PrismaService.isHealthy (all_up 0)) = Some true /\
    lookup "database" (dependencies r) = Some false /\
    lookup "redis" (dependencies r) = Some true.
Proof.
  destruct (readiness_counts_positive_latency service (all_up 0))
    as (databaseTime & redisTime & r & _ & _ & Hr & _ & _ & _ & Hzero & Htimer).
  exists r. repeat split.
  - unfold returned. rewrite Hr. reflexivity.
  - apply Hzero; reflexivity.
  - apply Htimer. vm_compute. reflexivity.
Defined.

(** The redis dependency is not always reported [true]: with a healthy
    database and the clock set back ten seconds while the 5 ms timer runs,
    [readiness()] answers ['not-ready'] with [redis = false]. *)
Lemma redis_reported_false_when_clock_set_back :
  exists r : ReadinessDto,
    returned (HealthService.readiness service clock_set_back) = Some r /\
    lookup "database" (dependencies r) = Some true /\
    lookup "redis" (dependencies r) = Some false /\
    rd_status r = "not-ready".
Proof.
  eexists. repeat split.
Qed.

(** ** Where the deep health view departs from its probes

    [check()] writes the literal ['up'] into both entries and only stores
    what the probes measured beside it, so a failed probe shows as
    [responseTime = -1] under status ['up'], and the aggregate is ['ok']. *)

(** C1. When the database round trip is rejected, [readiness()] answers
    ['not-ready'] with [database = false], while [check()] answers ['ok']
    with the database entry still ['up'], its response time the sentinel
    [-1]. *)
Theorem database_unreachable_views (this : HealthService.t) (w : World) :
  returned (PrismaService.isHealthy w) = Some false ->
  exists dto r w',
    HealthService.check this w = (Ok dto, w') /\
    status dto = ok /\
    lookup "database" (checks dto) =
      Some (mkHealthCheckDto up (-1) (Some "Connected successfully")) /\
    HealthService.readiness this w = (Ok r, w') /\
    rd_status r = "not-ready" /\
    lookup "database" (dependencies r) = Some false.
Proof.
  unfold returned. rewrite isHealthy_run. cbn [fst]. intros Hdown.
  assert (Htime : database_time w = -1).
  { unfold database_time. destruct (failure (next_reply w)); [reflexivity|discriminate]. }
  rewrite check_run, readiness_run, Htime.
  do 3 eexists. repeat split.
Qed.

Lemma database_unreachable_views_witness :
  returned (PrismaService.isHealthy database_down) = Some false /\
  exists dto r w',
    HealthService.check service database_down = (Ok dto, w') /\
    status dto = ok /\
    lookup "database" (checks dto) =
      Some (mkHealthCheckDto up (-1) (Some "Connected successfully")) /\
    HealthService.readiness service database_down = (Ok r, w') /\
    rd_status r = "not-ready" /\
    lookup "database" (dependencies r) = Some false.
Proof.
  split; [reflexivity | apply (database_unreachable_views service database_down); reflexivity].
Defined.

(** C2. The two views do not agree when the database is down: [check()]
    reports the database ['up'], [readiness()] reports it [false]. *)
Theorem views_disagree_when_database_down :
  ~ views_agree service database_down.
Proof.
  intros Hagree.
  destruct (Hagree "database") as [Hup _].
  destruct Hup as (r & Hr & Htrue).
  - eexists; split; reflexivity.
  - vm_compute in Hr. injection Hr as <-. discriminate Htrue.
Qed.

(** C3. A rejected round trip never escapes the database probe: the probe
    returns [-1], [isDatabaseHealthy()] returns [false], and [check()] and
    [readiness()] both return normally.  The entry [check()] builds for it
    carries that [-1] but status ['up'], not ['down']. *)
Theorem rejected_probe_is_contained (this : HealthService.t) (w w1 : World) (e : exn) :
  dollar_queryRaw PrismaService.SELECT_1 w = (Throw e, w1) ->
  HealthService.checkDatabase w = (Ok (-1), w1) /\
  HealthService.isDatabaseHealthy w = (Ok false, w1) /\
  (exists dto w',
      HealthService.check this w = (Ok dto, w') /\
      lookup "database" (checks dto) =
        Some (mkHealthCheckDto up (-1) (Some "Connected successfully"))) /\
  (exists r w',
      HealthService.readiness this w = (Ok r, w') /\
      lookup "database" (dependencies r) = Some false).
Proof.
  unfold dollar_queryRaw. rewrite client_call_run. intros Hthrow.
  assert (Htime : database_time w = -1).
  { unfold database_time. destruct (failure (next_reply w)); [reflexivity|discriminate]. }
  assert (Hw1 : after_database w = w1).
  { unfold after_database. congruence. }
  rewrite checkDatabase_run, isDatabaseHealthy_run, check_run, readiness_run.
  rewrite Htime, Hw1.
  repeat split; do 2 eexists; split; reflexivity.
Qed.

Lemma rejected_probe_is_contained_witness :
  exists w1 : World,
    dollar_queryRaw PrismaService.SELECT_1 database_down =
      (Throw (JsError "Can't reach database server"), w1) /\
    HealthService.checkDatabase database_down = (Ok (-1), w1) /\
    HealthService.isDatabaseHealthy database_down = (Ok false, w1) /\
    (exists dto w',
        HealthService.check service database_down = (Ok dto, w') /\
        lookup "database" (checks dto) =
          Some (mkHealthCheckDto up (-1) (Some "Connected successfully"))) /\
    (exists r w',
        HealthService.readiness service database_down = (Ok r, w') /\
        lookup "database" (dependencies r) = Some false).
Proof.
  eexists. split; [reflexivity|].
  apply (rejected_probe_is_contained service database_down _
           (JsError "Can't reach database server")).
  reflexivity.
Defined.

(** C5. Both handlers hand the service's snapshot back as their return
    value, so neither ever answers 500 - and neither ever answers anything
    but 200: with the database down, [GET /health/ready] sends the body
    ['not-ready'] with status 200. *)
Theorem handlers_always_answer_200 (this : HealthService.t) (w : World) :
  Nest.http_status (fst (HealthController.check this w)) = 200 /\
  Nest.http_status (fst (HealthController.ready this w)) = 200 /\
  option_map rd_status (returned (HealthController.ready service database_down)) =
    Some "not-ready" /\
  Nest.http_status (fst (HealthController.ready service database_down)) = 200.
Proof.
  unfold HealthController.check, HealthController.ready.
  rewrite check_run, readiness_run.
  repeat split.
Qed.

(** * Further properties of the services *)

(** ** PrismaService: what startup and shutdown leave in the log *)

(** X1. When [$connect] is rejected, startup sends no statement to the
    store: the only client call is the connect itself, one error line is
    logged with the error that is then thrown, and the client is left in
    the failed state. *)
Theorem startup_stops_at_failed_connect (w : World) (e : exn) :
  failure (next_reply w) = Some e ->
  exists w',
    PrismaService.onModuleInit w = (Throw e, w') /\
    trace w' =
      trace w ++
      [ EvConnect; EvLogger ERROR "Failed to connect to database" (Some e) ] /\
    awaits w' = S (awaits w) /\
    connection w' = Failed.
Proof.
  intros Hfail.
  rewrite onModuleInit_run, dollar_connect_run, Hfail.
  eexists; split; [reflexivity|].
  cbn. rewrite <- app_assoc. repeat split.
Qed.

Lemma startup_stops_at_failed_connect_witness :
  failure (next_reply database_down) = Some (JsError "Can't reach database server") /\
  exists w',
    PrismaService.onModuleInit database_down =
      (Throw (JsError "Can't reach database server"), w') /\
    trace w' =
      trace database_down ++
      [ EvConnect;
        EvLogger ERROR "Failed to connect to database"
                 (Some (JsError "Can't reach database server")) ] /\
    awaits w' = S (awaits database_down) /\
    connection w' = Failed.
Proof.
  split; [reflexivity | apply (startup_stops_at_failed_connect database_down); reflexivity].
Defined.

(** X2. When [$connect] resolves, startup logs the connection, then runs
    the two bootstrap statements in order, each followed by its own log
    line or warning, and ends connected - six events, whatever the store
    answers to the statements. *)
Theorem startup_trace_after_connect (w : World) :
  failure (next_reply w) = None ->
  exists w',
    PrismaService.onModuleInit w = (Ok tt, w') /\
    trace w' =
      trace w ++
      [ EvConnect;
        EvLogger LOG "🗄️  Database connected successfully" None;
        EvExecuteRaw PrismaService.CREATE_EXTENSION;
        step_report "⏰ TimescaleDB extension enabled"
                    "TimescaleDB extension may already be enabled"
                    (oracle w (S (awaits w)));
        EvExecuteRaw PrismaService.CREATE_HYPERTABLE;
        step_report "📊 market_data hypertable created/verified"
                    "Hypertable may already exist or TimescaleDB not available"
                    (oracle w (S (S (awaits w)))) ] /\
    awaits w' = S (S (S (awaits w))) /\
    connection w' = Connected.
Proof.
  intros Hok.
  rewrite onModuleInit_run, dollar_connect_run, Hok.
  eexists; split; [reflexivity|].
  rewrite bootstrapped_trace, bootstrapped_connection.
  cbn. repeat rewrite <- app_assoc. repeat split.
  unfold bootstrapped.
  rewrite enableTimescaleDB_run; cbn [snd].
  rewrite createMarketDataHypertable_run; reflexivity.
Qed.

Lemma startup_trace_after_connect_witness :
  failure (next_reply (all_up 1)) = None /\
  exists w',
    PrismaService.onModuleInit (all_up 1) = (Ok tt, w') /\
    trace w' =
      trace (all_up 1) ++
      [ EvConnect;
        EvLogger LOG "🗄️  Database connected successfully" None;
        EvExecuteRaw PrismaService.CREATE_EXTENSION;
        step_report "⏰ TimescaleDB extension enabled"
                    "TimescaleDB extension may already be enabled"
                    (oracle (all_up 1) (S (awaits (all_up 1))));
        EvExecuteRaw PrismaService.CREATE_HYPERTABLE;
        step_report "📊 market_data hypertable created/verified"
                    "Hypertable may already exist or TimescaleDB not available"
                    (oracle (all_up 1) (S (S (awaits (all_up 1))))) ] /\
    awaits w' = S (S (S (awaits (all_up 1)))) /\
    connection w' = Connected.
Proof.
  split; [reflexivity | apply (startup_trace_after_connect (all_up 1)); reflexivity].
Defined.

(** X3. The outer handler of [initializeTimescaleDB] is never entered: the
    two steps contain their own failures, so the warning
    "TimescaleDB initialization warning (may already be configured)" is
    never among the events a bootstrap adds, at any level and with any
    error. *)
Theorem initialization_warning_never_logged (w : World) :
  exists added : list event,
    trace (snd (PrismaService.initializeTimescaleDB w)) = trace w ++ added /\
    forall (level : LogLevel) (err : option exn),
      ~ In (EvLogger level
              "TimescaleDB initialization warning (may already be configured)" err)
           added.
Proof.
  rewrite initializeTimescaleDB_run. cbn [snd].
  eexists; split; [apply bootstrapped_trace|].
  intros level err Hin.
  unfold step_report in Hin.
  destruct (failure (oracle w (awaits w))), (failure (oracle w (S (awaits w))));
    cbn in Hin;
    repeat (destruct Hin as [Hin|Hin]; [discriminate Hin|]); exact Hin.
Qed.

(** X4. Shutdown makes one client call and logs exactly one line after it:
    the disconnect notice when [$disconnect] resolves, the error with its
    cause when it is rejected - and it returns normally either way. *)
Theorem shutdown_logs_one_line (w : World) :
  exists w',
    PrismaService.onModuleDestroy w = (Ok tt, w') /\
    awaits w' = S (awaits w) /\
    trace w' =
      trace w ++
      [ EvDisconnect;
        match failure (next_reply w) with
        | None => EvLogger LOG "🔌 Database disconnected" None
        | Some e => EvLogger ERROR "Error disconnecting from database" (Some e)
        end ].
Proof.
  unfold PrismaService.onModuleDestroy, try_catch, bind.
  rewrite dollar_disconnect_run.
  destruct (failure (next_reply w)); eexists; (split; [reflexivity|]);
    cbn; rewrite <- app_assoc; split; reflexivity.
Qed.

(** X5. [isHealthy()] is silent: whether the round trip resolves or is
    rejected it adds the one [SELECT 1] call to the trace and nothing else -
    no log line - and leaves the connection state as it was. *)
Theorem isHealthy_is_silent (w : World) :
  trace (snd (PrismaService.isHealthy w)) =
    trace w ++ [ EvQueryRaw PrismaService.SELECT_1 ] /\
  awaits (snd (PrismaService.isHealthy w)) = S (awaits w) /\
  connection (snd (PrismaService.isHealthy w)) = connection w.
Proof.
  rewrite isHealthy_run. repeat split.
Qed.

(** ** PrismaService.getDatabaseInfo *)

Lemma dollar_queryRaw_rows_run (result_set : nat -> list VersionRow)
    (statement : sql) (w : World) :
  dollar_queryRaw_rows result_set statement w =
  (match failure (next_reply w) with
   | None => Ok (result_set (awaits w))
   | Some e => Throw e
   end, after_call (EvQueryRaw statement) w).
Proof.
  unfold dollar_queryRaw_rows. rewrite client_call_run.
  destruct (failure (next_reply w)); reflexivity.
Qed.

Lemma getDatabaseInfo_run (result_set : nat -> list VersionRow) (w : World) :
  PrismaService.getDatabaseInfo result_set w =
  let w1 := after_call (EvQueryRaw PrismaService.SELECT_VERSION) w in
  let w2 := after_call (EvQueryRaw PrismaService.SELECT_EXTVERSION) w1 in
  match failure (next_reply w) with
  | Some e =>
      (Throw e, record (EvLogger ERROR "Failed to get database info" (Some e)) w1)
  | None =>
      match PrismaService.first_row (result_set (awaits w)) with
      | Some row =>
          (Ok (PrismaService.mkDatabaseInfo
                 (row_version row)
                 (match failure (next_reply w1) with
                  | None =>
                      option_map row_version
                        (PrismaService.first_row (result_set (awaits w1)))
                  | Some _ => None
                  end)), w2)
      | None =>
          (Throw TypeError_version_of_undefined,
           record (EvLogger ERROR "Failed to get database info"
                            (Some TypeError_version_of_undefined)) w2)
      end
  end.
Proof.
  unfold PrismaService.getDatabaseInfo.
  unfold try_catch at 1. unfold bind at 1.
  rewrite dollar_queryRaw_rows_run.
  destruct (failure (next_reply w)) as [e|]; [reflexivity|].
  cbn beta iota zeta.
  unfold bind at 1. unfold try_catch at 1. unfold bind at 1.
  rewrite dollar_queryRaw_rows_run.
  destruct (failure (next_reply (after_call _ w)));
    destruct (PrismaService.first_row (result_set (awaits w))); reflexivity.
Qed.

(** X6. [getDatabaseInfo()] throws exactly when the version query is
    rejected or comes back without a row; what the extension query does
    never decides it. *)
Theorem getDatabaseInfo_throws_iff (result_set : nat -> list VersionRow) (w : World) :
  (exists e w', PrismaService.getDatabaseInfo result_set w = (Throw e, w')) <->
  (failure (next_reply w) <> None \/ result_set (awaits w) = []).
Proof.
  rewrite getDatabaseInfo_run. cbn zeta.
  destruct (failure (next_reply w)) as [e|].
  - split; [intros _; left; discriminate | intros _; eauto].
  - destruct (result_set (awaits w)) as [|row rest]; cbn.
    + split; [intros _; right; reflexivity | intros _; eauto].
    + split.
      * intros (e & w' & H). discriminate H.
      * intros [H|H]; [contradiction H; reflexivity | discriminate H].
Qed.

(** X7. When the version query resolves with a row, the result carries
    that first row's version.  The extension version is the first row of the
    second query when there is one, and absent both when that query returns
    no row and when it is rejected; in none of these cases is anything
    logged: the two queries are the only events. *)
Theorem getDatabaseInfo_is_best_effort
    (result_set : nat -> list VersionRow) (w : World)
    (row : VersionRow) (others : list VersionRow) :
  failure (next_reply w) = None ->
  result_set (awaits w) = row :: others ->
  exists w',
    PrismaService.getDatabaseInfo result_set w =
      (Ok (PrismaService.mkDatabaseInfo
             (row_version row)
             (match failure (oracle w (S (awaits w))) with
              | None => option_map row_version (hd_error (result_set (S (awaits w))))
              | Some _ => None
              end)), w') /\
    trace w' =
      trace w ++
      [ EvQueryRaw PrismaService.SELECT_VERSION;
        EvQueryRaw PrismaService.SELECT_EXTVERSION ].
Proof.
  intros Hok Hrows.
  rewrite getDatabaseInfo_run, Hok, Hrows. cbn zeta.
  eexists; split; [reflexivity|].
  cbn. rewrite <- app_assoc. reflexivity.
Qed.

(** A store without the extension: the version query answers one row, the
    extension query none. *)
Lemma getDatabaseInfo_is_best_effort_witness :
  exists w',
    PrismaService.getDatabaseInfo plain_postgres_rows (all_up 1) =
      (Ok (PrismaService.mkDatabaseInfo "PostgreSQL 15.4" None), w') /\
    trace w' =
      trace (all_up 1) ++
      [ EvQueryRaw PrismaService.SELECT_VERSION;
        EvQueryRaw PrismaService.SELECT_EXTVERSION ].
Proof.
  destruct (getDatabaseInfo_is_best_effort plain_postgres_rows (all_up 1)
              (mkVersionRow "PostgreSQL 15.4") [mkVersionRow "ignored"])
    as [w' H]; [reflexivity | reflexivity |].
  exists w'. exact H.
Defined.

(** X8. When the version query is rejected, the extension query is never
    sent: the error is logged once and rethrown unchanged. *)
Theorem getDatabaseInfo_rejected_version_query
    (result_set : nat -> list VersionRow) (w : World) (e : exn) :
  failure (next_reply w) = Some e ->
  exists w',
    PrismaService.getDatabaseInfo result_set w = (Throw e, w') /\
    trace w' =
      trace w ++
      [ EvQueryRaw PrismaService.SELECT_VERSION;
        EvLogger ERROR "Failed to get database info" (Some e) ].
Proof.
  intros Hfail.
  rewrite getDatabaseInfo_run, Hfail. cbn zeta.
  eexists; split; [reflexivity|].
  cbn. rewrite <- app_assoc. reflexivity.
Qed.

Lemma getDatabaseInfo_rejected_version_query_witness :
  exists w',
    PrismaService.getDatabaseInfo (fun _ => []) database_down =
      (Throw (JsError "Can't reach database server"), w') /\
    trace w' =
      trace database_down ++
      [ EvQueryRaw PrismaService.SELECT_VERSION;
        EvLogger ERROR "Failed to get database info"
                 (Some (JsError "Can't reach database server")) ].
Proof.
  apply (getDatabaseInfo_rejected_version_query _ database_down); reflexivity.
Defined.

(** X9. When the version query resolves without a row, the failure only
    surfaces where the row is read: the extension query is still sent, and
    then the type error of reading [version] off [undefined] is logged and
    thrown. *)
Theorem getDatabaseInfo_empty_version_result
    (result_set : nat -> list VersionRow) (w : World) :
  failure (next_reply w) = None ->
  result_set (awaits w) = [] ->
  exists w',
    PrismaService.getDatabaseInfo result_set w =
      (Throw TypeError_version_of_undefined, w') /\
    trace w' =
      trace w ++
      [ EvQueryRaw PrismaService.SELECT_VERSION;
        EvQueryRaw PrismaService.SELECT_EXTVERSION;
        EvLogger ERROR "Failed to get database info"
                 (Some TypeError_version_of_undefined) ].
Proof.
  intros Hok Hrows.
  rewrite getDatabaseInfo_run, Hok, Hrows. cbn zeta.
  eexists; split; [reflexivity|].
  cbn. repeat rewrite <- app_assoc. reflexivity.
Qed.

Lemma getDatabaseInfo_empty_version_result_witness :
  exists w',
    PrismaService.getDatabaseInfo (fun _ => []) (all_up 1) =
      (Throw TypeError_version_of_undefined, w') /\
    trace w' =
      trace (all_up 1) ++
      [ EvQueryRaw PrismaService.SELECT_VERSION;
        EvQueryRaw PrismaService.SELECT_EXTVERSION;
        EvLogger ERROR "Failed to get database info"
                 (Some TypeError_version_of_undefined) ].
Proof.
  apply (getDatabaseInfo_empty_version_result _ (all_up 1)); reflexivity.
Defined.

(** ** HealthService: what the two views have in common *)

(** X10. Each view runs the probe set once and does nothing else to the
    outside: one [SELECT 1] round trip, then one 5 ms timer, no log line,
    no change of the connection state.  Run from the same world the two
    views leave the same world behind and carry the same timestamp. *)
Theorem views_share_one_footprint (this : HealthService.t) (w : World) :
  snd (HealthService.check this w) = snd (HealthService.readiness this w) /\
  trace (snd (HealthService.check this w)) =
    trace w ++ [ EvQueryRaw PrismaService.SELECT_1; EvSetTimeout 5 ] /\
  awaits (snd (HealthService.check this w)) = S (S (awaits w)) /\
  connection (snd (HealthService.check this w)) = connection w /\
  option_map timestamp (returned (HealthService.check this w)) =
    option_map rd_timestamp (returned (HealthService.readiness this w)).
Proof.
  rewrite check_run, readiness_run. cbn [snd].
  repeat split.
  cbn. rewrite <- app_assoc. reflexivity.
Qed.

(** X11. Nothing is carried over from one view to the next: [readiness()]
    called after [check()] probes again, so the pair costs two round trips
    and two timers, and the second pair is answered by the outside's third
    and fourth replies. *)
Theorem readiness_after_check_probes_again (this : HealthService.t) (w : World) :
  let w1 := snd (HealthService.check this w) in
  trace (snd (HealthService.readiness this w1)) =
    trace w ++
    [ EvQueryRaw PrismaService.SELECT_1; EvSetTimeout 5;
      EvQueryRaw PrismaService.SELECT_1; EvSetTimeout 5 ] /\
  option_map dependencies (returned (HealthService.readiness this w1)) =
    Some [ ("database",
            match failure (oracle w (S (S (awaits w)))) with
            | None => 0 <? took (oracle w (S (S (awaits w))))
            | Some _ => false
            end);
           ("redis", 0 <? 5 + took (oracle w (S (S (S (awaits w)))))) ].
Proof.
  cbn zeta. rewrite check_run. cbn [snd]. rewrite readiness_run.
  split.
  - cbn. repeat rewrite <- app_assoc. reflexivity.
  - unfold returned. cbn [fst option_map dependencies].
    unfold database_time, redis_time, next_reply. cbn.
    destruct (failure (oracle w (S (S (awaits w))))); reflexivity.
Qed.

(** X12. Both views always name the same dependencies in the same order,
    ["database"] then ["redis"]; a failing probe changes the values, never
    the keys. *)
Theorem views_always_list_both_dependencies (this : HealthService.t) (w : World) :
  option_map (fun dto => map fst (checks dto)) (returned (HealthService.check this w)) =
    Some [ "database"; "redis" ] /\
  option_map (fun r => map fst (dependencies r))
             (returned (HealthService.readiness this w)) =
    Some [ "database"; "redis" ].
Proof.
  rewrite check_run, readiness_run. split; reflexivity.
Qed.

(** X13. The reported uptime is the number of whole seconds between the
    service's start time and the clock reading at the call: it is never
    rounded up. *)
Theorem uptime_is_whole_seconds (this : HealthService.t) (w : World) :
  exists dto,
    returned (HealthService.check this w) = Some dto /\
    1000 * uptime dto <= clock w - HealthService.startTime this
      < 1000 * uptime dto + 1000.
Proof.
  rewrite check_run. eexists; split; [reflexivity|].
  cbn [uptime].
  pose proof (Z.div_mod (clock w - HealthService.startTime this) 1000).
  pose proof (Z.mod_pos_bound (clock w - HealthService.startTime this) 1000).
  lia.
Qed.

(** X15. [readiness()] answers ['ready'] exactly when the [SELECT 1] round
    trip resolved, the clock moved forward across it, and the clock moved
    forward across the 5 ms timer. *)
Theorem ready_iff_both_probes_measured (this : HealthService.t) (w : World) :
  exists r,
    returned (HealthService.readiness this w) = Some r /\
    (rd_status r = "ready" <->
     failure (next_reply w) = None /\
     clock w < clock (after_database w) /\
     clock (after_database w) < clock (after_probes w)).
Proof.
  rewrite readiness_run. eexists; split; [reflexivity|].
  cbn [rd_status].
  unfold database_time, redis_time, after_probes, after_timer, after_database,
    after_call, next_reply.
  cbn -[Z.add Z.ltb].
  destruct (failure (oracle w (awaits w))) as [e|].
  - cbn. split; [discriminate | intros [H _]; discriminate H].
  - destruct (Z.ltb_spec 0 (took (oracle w (awaits w))));
      destruct (Z.ltb_spec 0 (5 + took (oracle w (S (awaits w)))));
      cbn -[Z.add]; split; try discriminate; try lia;
      intros; repeat split; try reflexivity; lia.
Qed.

(** ** PrismaService: the client options *)

(** X16. The client always logs warnings and errors; queries and
    informational messages are logged exactly when [NODE_ENV] is the string
    ['development'] - not when it is unset. *)
Theorem client_log_levels (configService : PrismaService.ConfigService) :
  let options := PrismaService.constructor_options configService in
  In "warn" (PrismaService.log options) /\
  In "error" (PrismaService.log options) /\
  (In "query" (PrismaService.log options) <->
   configService "NODE_ENV" = Some "development") /\
  (In "info" (PrismaService.log options) <->
   configService "NODE_ENV" = Some "development").
Proof.
  cbn zeta. unfold PrismaService.constructor_options, PrismaService.strict_equals.
  destruct (configService "NODE_ENV") as [v|].
  - destruct (String.eqb_spec v "development") as [->|Hne]; cbn;
      repeat split; auto; try tauto;
      intros H; try congruence;
      repeat (destruct H as [H|H]; [discriminate H|]); contradiction.
  - cbn. repeat split; auto; try discriminate;
      intros H; repeat (destruct H as [H|H]; [discriminate H|]); contradiction.
Qed.

(** ** EnvValidation *)

Lemma append_assoc (a b c : string) :
  ((a ++ b) ++ c = a ++ (b ++ c))%string.
Proof.
  induction a as [|ch a IH]; cbn; [reflexivity | rewrite IH; reflexivity].
Qed.

Lemma append_empty_r (a : string) : (a ++ "" = a)%string.
Proof.
  induction a as [|ch a IH]; cbn; [reflexivity | rewrite IH; reflexivity].
Qed.

Lemma prefix_append (a b : string) : prefix a (a ++ b)%string = true.
Proof.
  induction a as [|ch a IH]; cbn.
  - destruct b; reflexivity.
  - destruct (Ascii.ascii_dec ch ch); [exact IH | contradiction].
Qed.

(** Every joined item occurs in the joined text. *)
Lemma join_contains (separator item : string) (items : list string) :
  In item items ->
  exists before after : string,
    EnvValidation.join separator items = (before ++ item ++ after)%string.
Proof.
  induction items as [|first rest IH]; intros Hin; [contradiction|].
  destruct Hin as [->|Hin].
  - destruct rest as [|second rest].
    + exists "", "". cbn. rewrite append_empty_r. reflexivity.
    + exists "", (separator ++ EnvValidation.join separator (second :: rest))%string.
      reflexivity.
  - destruct rest as [|second rest]; [contradiction|].
    destruct (IH Hin) as (before & after & Heq).
    exists (first ++ separator ++ before)%string, after.
    change (EnvValidation.join separator (first :: second :: rest))
      with (first ++ separator ++ EnvValidation.join separator (second :: rest))%string.
    rewrite Heq. rewrite !append_assoc. reflexivity.
Qed.

(** X17. [validateEnvironment] neither invents nor swallows a failure: it
    returns a value exactly when the schema's parse returns that value, it
    passes on unchanged anything thrown that is not a Zod error, and what it
    throws itself is never a Zod error. *)
Theorem validateEnvironment_keeps_outcome {Config Env : Type}
    (parse : Config -> Env + EnvValidation.Raised) (config : Config) :
  (forall environment : Env,
      EnvValidation.validateEnvironment parse config = inl environment <->
      parse config = inl environment) /\
  (forall e : exn,
      parse config = inr (EnvValidation.Other e) ->
      EnvValidation.validateEnvironment parse config = inr (EnvValidation.Other e)) /\
  (forall errors : list EnvValidation.ZodIssue,
      EnvValidation.validateEnvironment parse config <>
      inr (EnvValidation.ZodError errors)).
Proof.
  unfold EnvValidation.validateEnvironment.
  destruct (parse config) as [v|[errors|e]]; repeat split;
    try congruence; try discriminate.
Qed.

(** X18. When the schema's parse throws a Zod error, the error thrown
    instead has a message that starts with
    "Environment validation failed: " and contains, for every issue, its
    dotted path and its message as [path: message]. *)
Theorem validateEnvironment_reports_every_issue {Config Env : Type}
    (parse : Config -> Env + EnvValidation.Raised) (config : Config)
    (errors : list EnvValidation.ZodIssue) :
  parse config = inr (EnvValidation.ZodError errors) ->
  exists text : string,
    EnvValidation.validateEnvironment parse config =
      inr (EnvValidation.Other (JsError text)) /\
    prefix "Environment validation failed: " text = true /\
    forall err : EnvValidation.ZodIssue,
      In err errors ->
      exists before after : string,
        text = (before ++ EnvValidation.describe err ++ after)%string.
Proof.
  intros Hparse. unfold EnvValidation.validateEnvironment. rewrite Hparse.
  eexists; split; [reflexivity|]. split.
  - apply prefix_append.
  - intros err Hin.
    destruct (join_contains ", " (EnvValidation.describe err)
                (map EnvValidation.describe errors)) as (before & after & Heq).
    { apply in_map. exact Hin. }
    exists ("Environment validation failed: " ++ before)%string, after.
    rewrite Heq. rewrite append_assoc. reflexivity.
Qed.

(** Two issues, one at a key and one at an index below a key. *)
Lemma validateEnvironment_reports_every_issue_witness :
  exists text : string,
    EnvValidation.validateEnvironment (Env := unit) sample_parse tt =
      inr (EnvValidation.Other (JsError text)) /\
    prefix "Environment validation failed: " text = true /\
    forall err : EnvValidation.ZodIssue,
      In err sample_issues ->
      exists before after : string,
        text = (before ++ EnvValidation.describe err ++ after)%string.
Proof.
  apply (validateEnvironment_reports_every_issue sample_parse tt sample_issues).
  reflexivity.
Defined.
